(** * Foot_app accounts: password-change policy and user provisioning

    A shallow embedding of [user_profile/accounts/forms.py]
    ([ValidatingPasswordChangeForm.clean]) and of
    [user_profile/accounts/models.py] ([UserManager.create_user], the
    [User] / [UserProfile] tables and the [post_save] receiver
    [create_user_profile]), followed by the properties of the password
    policy and of user provisioning. *)

From stdpp Require Import base option list strings gmap fin_maps fin_sets.
From Stdlib Require Import NArith Ascii.

Open Scope N_scope.

(* ===================================================================== *)
(** * Python text *)
(* ===================================================================== *)

(** A Python [str] is a sequence of Unicode code points; [len] is the number
    of code points and [==] is equality of the sequences. *)
Abbreviation char := N (only parsing).
Abbreviation str := (list N) (only parsing).

(** [ord c] for a character written as an ASCII literal. *)
Definition ord (c : ascii) : char := N_of_ascii c.
Arguments ord c%_char.

(** A [str] literal whose characters are all ASCII. *)
Definition text (s : string) : str := ord <$> String.list_ascii_of_string s.

(** The part of the Python runtime the forms rely on and that is not written
    in this repository.

    - [str_lower] is [str.lower()], the full Unicode lower-casing (it can
      change the length of a string and depends on context for the Greek
      final sigma, so it is a function on strings).
    - [re_digit_extra] is the set of non-ASCII characters the regular
      expression class [\d] accepts: the Unicode decimal digits for a [str]
      pattern, nothing under ASCII matching. *)
Class PyRuntime := {
  str_lower : str → str;
  re_digit_extra : char → bool
}.

(** What is assumed of [str.lower()]: on ASCII text it maps [A-Z] to [a-z]
    and leaves every other character alone. *)
Definition ascii_lower_char (c : char) : char :=
  if (ord "A" <=? c) && (c <=? ord "Z") then c + 32 else c.

Definition ascii_lower (s : str) : str := ascii_lower_char <$> s.

Definition is_ascii (c : char) : bool := c <? 128.

Definition lower_on_ascii `{PyRuntime} : Prop :=
  ∀ s : str, forallb is_ascii s = true → str_lower s = ascii_lower s.

(** The regular-expression character classes of [clean]. *)
Definition re_lower_az (c : char) : bool := (ord "a" <=? c) && (c <=? ord "z").
Definition re_upper_AZ (c : char) : bool := (ord "A" <=? c) && (c <=? ord "Z").
Definition re_digit `{PyRuntime} (c : char) : bool :=
  (ord "0" <=? c) && (c <=? ord "9") || re_digit_extra c.
Definition re_special (c : char) : bool :=
  (c =? ord "@") || (c =? ord "#") || (c =? ord "$").

(** [re.search(p, s)] for a pattern [p] that is one character class repeated
    one or more times ([([a-z])+], [\d+], [([@#$])+]): the truth value of
    the match object, i.e. whether some position of [s] starts a match. *)
Fixpoint re_search_plus (cls : char → bool) (s : str) : bool :=
  match s with
  | [] => false
  | c :: s' => cls c || re_search_plus cls s'
  end.

(** [s.startswith(p)]. *)
Fixpoint startswith (p s : str) : bool :=
  match p, s with
  | [], _ => true
  | _ :: _, [] => false
  | a :: p', b :: s' => (a =? b) && startswith p' s'
  end.

(** [sub in s] on two strings: [sub] occurs in [s] as a contiguous run. *)
Fixpoint str_in (sub s : str) : bool :=
  startswith sub s ||
  match s with
  | [] => false
  | _ :: s' => str_in sub s'
  end.

(** A value that is a [str] or [None], and Python's [not v] on it. *)
Definition falsy (v : option str) : bool :=
  match v with
  | None | Some [] => true
  | Some (_ :: _) => false
  end.

(* ===================================================================== *)
(** * models.py *)
(* ===================================================================== *)

(** A [User] instance. [id] is the primary key, [None] until the instance is
    first saved. [password] holds the stored hash. The time stamps
    ([date_joined], [last_login]) play no part in what follows and are left
    out. [username] is the [USERNAME_FIELD]; it is a string on every user
    made by [create_user] and on every user who can log in. *)
Record User := mkUser {
  id : option N;
  first_name : str;
  last_name : str;
  username : str;
  email : str;
  password : str;
  is_active : bool;
  is_staff : bool;
  is_superuser : bool
}.

(** A [UserProfile] row: [user_id] is the column of the [OneToOneField];
    the other columns are nullable. *)
Record UserProfile := mkUserProfile {
  user_id : N;
  avatar : option str;
  location : option str;
  country : option str;
  preferred_position : option str;
  preferred_foot : option str
}.

(** The two tables, keyed by primary key. *)
Record DB := mkDB {
  users : gmap N User;
  profiles : gmap N UserProfile
}.

Definition empty_db : DB := mkDB ∅ ∅.

(** The part of the host framework's authentication layer the code calls:
    [check_password] is [user.check_password(raw)], [make_password] the hash
    [set_password] stores (of a raw password or of [None]), and
    [normalize_email] is [BaseUserManager.normalize_email]. *)
Class Auth := {
  check_password : User → str → bool;
  make_password : option str → str;
  normalize_email : str → str
}.

(** Exceptions, and computations over the database that may raise. The
    database is threaded through a raise as well: rows written before the
    exception stay written. *)
Inductive Exn :=
| ValueError (msg : string)
| IntegrityError.

Definition M (A : Type) : Type := DB → (Exn + A) * DB.

#[global] Instance M_ret : MRet M := λ A x db, (inr x, db).
#[global] Instance M_bind : MBind M := λ A B f m db,
  match m db with
  | (inl e, db') => (inl e, db')
  | (inr x, db') => f x db'
  end.

Definition raise {A} (e : Exn) : M A := λ db, (inl e, db).

(** The rows of [UserProfile] that point to the user with key [k]. *)
Definition profiles_of (k : N) (db : DB) : gmap N UserProfile :=
  filter (λ row, user_id row.2 = k) (profiles db).

(** The row [UserProfile.objects.create(user=...)] writes for the user with
    key [k]: every other column is left to its null default. *)
Definition new_profile (k : N) : UserProfile :=
  mkUserProfile k None None None None None.

(** [UserProfile.objects.create(user=instance)]: a new row with a fresh key,
    pointing to [instance]; the database refuses a second row for one user
    (the one-to-one column is unique), and the ORM refuses an instance that
    has no key yet. *)
Definition UserProfile_objects_create (instance : User) : M UserProfile :=
  match id instance with
  | None => raise (ValueError
      "save() prohibited to prevent data loss due to unsaved related object 'user'.")
  | Some k => λ db,
      if bool_decide (profiles_of k db = ∅) then
        (inr (new_profile k),
         mkDB (users db) (<[fresh (dom (profiles db)) := new_profile k]> (profiles db)))
      else (inl IntegrityError, db)
  end.

(** The [post_save] receiver connected for [sender=User]. *)
Definition create_user_profile (instance : User) (created : bool) : M unit :=
  if created then
    _ ← UserProfile_objects_create instance; mret ()
  else mret ().

(** The unique columns of [User]: no other row has this [username] or this
    [email]. *)
Definition User_unique (k : N) (u : User) (tbl : gmap N User) : Prop :=
  map_Forall (λ k' row, k' = k ∨ (username row ≠ username u ∧ email row ≠ email u)) tbl.

(** Where [user.save()] writes: an instance without a key gets a fresh one
    and is inserted; an instance with a key is updated if the key has a row
    and inserted if not. The flag is [created]. *)
Definition save_target (u : User) (db : DB) : N * bool :=
  match id u with
  | Some k => (k, bool_decide (users db !! k = None))
  | None => (fresh (dom (users db)), true)
  end.

Definition with_id (k : N) (u : User) : User :=
  mkUser (Some k) (first_name u) (last_name u) (username u) (email u)
         (password u) (is_active u) (is_staff u) (is_superuser u).

(** [user.save()]: the row is written, then [post_save] is sent to the
    receiver above with the saved instance, which now carries its key. *)
Definition User_save (u : User) : M User := λ db,
  let '(k, created) := save_target u db in
  if bool_decide (User_unique k u (users db)) then
    (_ ← create_user_profile (with_id k u) created; mret (with_id k u))
      (mkDB (<[k := with_id k u]> (users db)) (profiles db))
  else (inl IntegrityError, db).

(** Referential integrity of the one-to-one column: every profile points to
    a row of [User]. *)
Definition profiles_reference_users (db : DB) : Prop :=
  map_Forall (λ _ row, is_Some (users db !! user_id row)) (profiles db).

(** [user.set_password(raw)]. *)
Definition set_password `{Auth} (u : User) (raw : option str) : User :=
  mkUser (id u) (first_name u) (last_name u) (username u) (email u)
         (make_password raw) (is_active u) (is_staff u) (is_superuser u).

(** [self.model(first_name=..., last_name=..., email=..., username=...)]:
    a fresh, unsaved instance with the field defaults. *)
Definition User_model (first_name last_name email username : str) : User :=
  mkUser None first_name last_name username email [] true false false.

(** [UserManager.create_user]. *)
Definition create_user `{Auth} (first_name last_name : str)
    (email username password : option str) : M User :=
  match email with
  | None | Some [] => raise (ValueError "Users must have an email address")
  | Some email =>
      match username with
      | None | Some [] => raise (ValueError "Users must have a username")
      | Some username =>
          let user := User_model first_name last_name (normalize_email email) username in
          let user := set_password user password in
          User_save user
      end
  end.

(* ===================================================================== *)
(** * forms.py: ValidatingPasswordChangeForm *)
(* ===================================================================== *)

(** The form's [cleaned_data]: the three fields of the password-change
    form, each a string once field validation has run. *)
Record CleanedData := mkCleanedData {
  old_password : str;
  new_password1 : str;
  new_password2 : str
}.

(** The [forms.ValidationError]s [clean] raises, one constructor per
    [raise], named after the rule it reports:
    - [WrongOldPassword]: "Your old password was entered incorrectly. ..."
    - [PasswordUnchanged]: "New password cannot match the old password."
    - [MissingCaseMix]: "The new password must use both uppercase and
      lowercase letters."
    - [TooShort]: "The new password must be at least 14 characters long."
    - [MissingDigit]: "The new password must include one or more numerical
      digits."
    - [MissingSpecialChar]: "The new password must include the at least one
      of the following characters: @, #, or $."
    - [ContainsIdentityFragment]: "The new password cannot contain your
      username (..) or parts of your full name (.. ..)." *)
Inductive ValidationError :=
| WrongOldPassword
| PasswordUnchanged
| MissingCaseMix
| TooShort
| MissingDigit
| MissingSpecialChar
| ContainsIdentityFragment.

#[global] Instance ValidationError_eq_dec : EqDecision ValidationError.
Proof. solve_decision. Defined.

Definition MIN_LENGTH : nat := 14.

(** [ValidatingPasswordChangeForm.clean], for the logged-in [user]
    ([self.request.user]): the cleaned data is returned, or one
    [ValidationError] is raised. *)
Definition clean `{PyRuntime} `{Auth} (user : User) (cleaned_data : CleanedData)
    : ValidationError + CleanedData :=
  let new_password := new_password1 cleaned_data in
  let old_password := old_password cleaned_data in
  if negb (check_password user old_password) then inl WrongOldPassword
  else if bool_decide (new_password = old_password) then inl PasswordUnchanged
  else if negb (re_search_plus re_lower_az new_password)
          || negb (re_search_plus re_upper_AZ new_password) then inl MissingCaseMix
  else if (length new_password <? MIN_LENGTH)%nat then inl TooShort
  else if negb (re_search_plus re_digit new_password) then inl MissingDigit
  else if negb (re_search_plus re_special new_password) then inl MissingSpecialChar
  else
    let user_first_name := str_lower (first_name user) in
    let user_last_name := str_lower (last_name user) in
    let user_username := str_lower (username user) in
    if str_in user_first_name (str_lower new_password)
       || str_in user_last_name (str_lower new_password)
       || str_in user_username (str_lower new_password)
    then inl ContainsIdentityFragment
    else inr cleaned_data.

(** ** The rule list of the specification

    The seven rules as "violated" predicates over the same primitives, in
    the order the specification fixes, each with the reason it reports. *)
Definition old_password_wrong `{Auth} (user : User) (d : CleanedData) : bool :=
  negb (check_password user (old_password d)).
Definition password_unchanged (d : CleanedData) : bool :=
  bool_decide (new_password1 d = old_password d).
Definition case_mix_missing (d : CleanedData) : bool :=
  negb (re_search_plus re_lower_az (new_password1 d)
        && re_search_plus re_upper_AZ (new_password1 d)).
Definition too_short (d : CleanedData) : bool :=
  negb (MIN_LENGTH <=? length (new_password1 d))%nat.
Definition digit_missing `{PyRuntime} (d : CleanedData) : bool :=
  negb (re_search_plus re_digit (new_password1 d)).
Definition special_missing (d : CleanedData) : bool :=
  negb (re_search_plus re_special (new_password1 d)).

(** Identity leakage as [clean] tests it: every field is matched. *)
Definition identity_leaked `{PyRuntime} (user : User) (d : CleanedData) : bool :=
  let pw := str_lower (new_password1 d) in
  str_in (str_lower (username user)) pw
  || str_in (str_lower (first_name user)) pw
  || str_in (str_lower (last_name user)) pw.

(** Identity leakage as the specification words it: a field is matched only
    if it is non-empty. *)
Definition field_leaked `{PyRuntime} (field pw : str) : bool :=
  negb (bool_decide (field = [])) && str_in (str_lower field) (str_lower pw).
Definition spec_identity_leaked `{PyRuntime} (user : User) (d : CleanedData) : bool :=
  field_leaked (username user) (new_password1 d)
  || field_leaked (first_name user) (new_password1 d)
  || field_leaked (last_name user) (new_password1 d).

Definition rules `{PyRuntime} `{Auth} (user : User) (d : CleanedData)
    : list (bool * ValidationError) :=
  [ (old_password_wrong user d, WrongOldPassword);
    (password_unchanged d, PasswordUnchanged);
    (case_mix_missing d, MissingCaseMix);
    (too_short d, TooShort);
    (digit_missing d, MissingDigit);
    (special_missing d, MissingSpecialChar);
    (identity_leaked user d, ContainsIdentityFragment) ].

(** The first violated rule of a list, if any. *)
Fixpoint first_violation (rs : list (bool * ValidationError)) : option ValidationError :=
  match rs with
  | [] => None
  | (violated, reason) :: rs' => if violated then Some reason else first_violation rs'
  end.

(** Rule [k] of the list is violated and reports [e], and every rule before
    it holds. *)
Definition fails_first_at (rs : list (bool * ValidationError)) (k : nat)
    (e : ValidationError) : Prop :=
  rs !! k = Some (true, e)
  ∧ ∀ j v r, (j < k)%nat → rs !! j = Some (v, r) → v = false.

(** The request passes the first [n] checks. *)
Definition passes_first `{PyRuntime} `{Auth} (n : nat) (user : User) (d : CleanedData) : bool :=
  forallb (λ r, negb r.1) (take n (rules user d)).

(** What [clean] hands back for a list of rules. *)
Definition outcome (d : CleanedData) (v : option ValidationError)
    : ValidationError + CleanedData :=
  match v with
  | Some e => inl e
  | None => inr d
  end.

(** ** A runtime for concrete runs

    ASCII lower-casing, [\d] as [0-9], and an authentication layer whose
    hash is the identity. *)
Definition ascii_runtime : PyRuntime :=
  {| str_lower := ascii_lower; re_digit_extra := λ _, false |}.

Definition plain_auth : Auth :=
  {| check_password := λ u raw, bool_decide (password u = raw);
     make_password := λ raw, default [] raw;
     normalize_email := λ e, e |}.

Definition jdoe : User :=
  mkUser (Some 1) (text "John") (text "Doe") (text "jdoe") (text "jdoe@example.org")
         (text "OldPassw0rd##1") true false false.

(** A registered user who left the first name blank, as [create_user] and
    the [blank=True] column allow. *)
Definition anon : User :=
  mkUser (Some 2) [] (text "Doe") (text "jdoe") (text "jdoe@example.org")
         (text "OldPassw0rd##1") true false false.

(** A new, unsaved user with blank first and last names. *)
Definition alice : User :=
  @set_password plain_auth
    (User_model [] [] (text "alice@example.org") (text "alice"))
    (Some (text "Str0ng#Pass2024")).

Definition change (new : string) : CleanedData :=
  mkCleanedData (text "OldPassw0rd##1") (text new) (text new).

(* ===================================================================== *)
(** * models.py: the rest of the manager and of [User] *)
(* ===================================================================== *)

(** [user.is_staff = True; user.is_superuser = True]. *)
Definition make_staff_superuser (u : User) : User :=
  mkUser (id u) (first_name u) (last_name u) (username u) (email u)
         (password u) (is_active u) true true.

(** [UserManager.create_superuser]. In its signature [password] comes
    before [username], and [username] defaults to [None]. The user made by
    [create_user] is marked and saved a second time; the instance handed
    back is that saved instance. *)
Definition create_superuser `{Auth} (first_name last_name : str)
    (email password username : option str) : M User :=
  user ← create_user first_name last_name email username password;
  User_save (make_staff_superuser user).

(** [User.__str__]: ["@{}".format(self.username)]. *)
Definition User_str (u : User) : str := text "@" ++ username u.

(** [User.get_short_name]. *)
Definition get_short_name (u : User) : str := first_name u.

(** [User.get_full_name]: ["{} {} (@{})".format(first_name, last_name,
    username)]. *)
Definition get_full_name (u : User) : str :=
  first_name u ++ text " " ++ last_name u ++ text " (@" ++ username u ++ text ")".

(** ** What the tables keep true

    - every row of [User] is stored under its own [id];
    - no two rows share a [username] or an [email] (both columns are
      [unique=True]);
    - every user has exactly one profile. *)
Definition keys_match_ids (db : DB) : Prop :=
  map_Forall (λ k row, id row = Some k) (users db).

Definition unique_columns (db : DB) : Prop :=
  ∀ k1 k2 r1 r2,
    users db !! k1 = Some r1 → users db !! k2 = Some r2 →
    username r1 = username r2 ∨ email r1 = email r2 → k1 = k2.

Definition one_profile_each (db : DB) : Prop :=
  ∀ k, is_Some (users db !! k) → size (profiles_of k db) = 1%nat.

Definition consistent (db : DB) : Prop :=
  profiles_reference_users db ∧ keys_match_ids db
  ∧ unique_columns db ∧ one_profile_each db.

(* ===================================================================== *)
(** * forms.py: the email forms *)
(* ===================================================================== *)

(** The message of the [forms.ValidationError] the email forms raise. *)
Definition email_mismatch : string :=
  "You need to enter the same email in both fields".

(** [UserCreateForm.clean]. [cleaned_data] is the dict of the fields that
    passed field validation; [data.get(key)] is [None] for a field that did
    not. The result is the raised error's message or the returned dict. *)
Definition UserCreateForm_clean (cleaned_data : gmap string (list N))
    : string + gmap string (list N) :=
  let data := cleaned_data in
  let email := data !! "email" in
  let verify := data !! "verify_email" in
  if bool_decide (email ≠ verify) then inl email_mismatch
  else inr data.

(** [UserUpdateEmail.clean]: the same test; nothing is returned. *)
Definition UserUpdateEmail_clean (cleaned_data : gmap string (list N))
    : string + unit :=
  let data := cleaned_data in
  let email := data !! "email" in
  let verify := data !! "verify_email" in
  if bool_decide (email ≠ verify) then inl email_mismatch
  else inr ().

(** [UserUpdateForm.clean]: reads the dict and returns nothing. *)
Definition UserUpdateForm_clean (cleaned_data : gmap string (list N))
    : string + unit :=
  let data := cleaned_data in
  inr ().

(** The database after [alice] has been saved into the empty one. *)
Definition alice_db : DB := (User_save alice empty_db).2.

(* ===================================================================== *)
(** * Facts about the text primitives *)
(* ===================================================================== *)

Section text_facts.
Implicit Types (s sub p : str) (cls : char → bool).

(** A search for [cls+] succeeds exactly when some character of the
    string is in the class. *)
Lemma re_search_plus_spec cls s :
  re_search_plus cls s = true ↔ ∃ c, c ∈ s ∧ cls c = true.
Proof.
  induction s as [|a s IH]; simpl.
  - split; [done | intros (c & Hc & _); inversion Hc].
  - rewrite orb_true_iff, IH. split.
    + intros [Ha | (c & Hc & Hcls)]; [exists a | exists c]; split; auto; constructor; done.
    + intros (c & Hc & Hcls). apply elem_of_cons in Hc as [-> | Hc]; eauto.
Qed.

(** The match of [cls+] found by a successful search is a non-empty run
    of class characters inside the string. *)
Lemma re_search_plus_match cls s :
  re_search_plus cls s = true ↔
  ∃ l m r, s = l ++ m ++ r ∧ m ≠ [] ∧ forallb cls m = true.
Proof.
  rewrite re_search_plus_spec. split.
  - intros (c & Hc & Hcls). apply list_elem_of_split in Hc as (l & r & ->).
    exists l, [c], r. simpl. rewrite Hcls. done.
  - intros (l & m & r & -> & Hm & Hall). destruct m as [|c m]; [done|].
    simpl in Hall. apply andb_true_iff in Hall as [Hc _].
    exists c. split; [|done]. rewrite !elem_of_app. right; left. constructor.
Qed.

Lemma startswith_spec p s : startswith p s = true ↔ ∃ r, s = p ++ r.
Proof.
  revert s. induction p as [|a p IH]; intros s; simpl.
  - split; eauto.
  - destruct s as [|b s].
    + split; [done | intros (r & Hr); done].
    + rewrite andb_true_iff, N.eqb_eq, IH. split.
      * intros (-> & r & ->). eauto.
      * intros (r & Hr). injection Hr as -> ->. eauto.
Qed.

(** [sub in s] holds exactly when [s] splits around a copy of [sub]. *)
Lemma str_in_spec sub s : str_in sub s = true ↔ ∃ l r, s = l ++ sub ++ r.
Proof.
  induction s as [|b s IH]; simpl; rewrite orb_true_iff, startswith_spec.
  - split.
    + intros [(r & Hr) | ?]; [|done]. exists [], r. done.
    + intros (l & r & Hs). left. destruct l; [eauto | done].
  - rewrite IH. split.
    + intros [(r & Hr) | (l & r & ->)]; [exists [], r | exists (b :: l), r]; done.
    + intros (l & r & Hs). destruct l as [|b' l]; [left; eauto|].
      right. injection Hs as -> ->. eauto.
Qed.

(** The empty string occurs in every string. *)
Lemma str_in_empty s : str_in [] s = true.
Proof. destruct s; reflexivity. Qed.

Lemma ascii_lower_length s : length (ascii_lower s) = length s.
Proof. apply length_fmap. Qed.
End text_facts.

(** Under the ASCII law, lower-casing the empty string gives the empty
    string. *)
Lemma str_lower_empty `{PyRuntime} : lower_on_ascii → str_lower [] = [].
Proof. intros Hlow. apply (Hlow []). reflexivity. Qed.

Lemma ascii_runtime_lower_on_ascii : @lower_on_ascii ascii_runtime.
Proof. intros s _. reflexivity. Qed.

(* ===================================================================== *)
(** * The password policy *)
(* ===================================================================== *)

Section first_violation_facts.
Implicit Types (rs : list (bool * ValidationError)) (e : ValidationError).

Lemma first_violation_Some rs e :
  first_violation rs = Some e ↔ ∃ k, fails_first_at rs k e.
Proof.
  induction rs as [|[v r] rs IH]; simpl.
  - split; [done | intros (k & Hk & _); done].
  - destruct v.
    + split.
      * intros [= ->]. exists 0%nat. split; [done | intros; lia].
      * intros (k & Hk & Hbefore). destruct k as [|k]; [by injection Hk as -> |].
        by specialize (Hbefore 0%nat true r ltac:(lia) eq_refl).
    + rewrite IH. split.
      * intros (k & Hk & Hbefore). exists (S k). split; [done|].
        intros [|j] v' r' Hj Hlook; [by injection Hlook as <- _ |].
        apply (Hbefore j v' r'); [lia | done].
      * intros (k & Hk & Hbefore). destruct k as [|k]; [done|].
        exists k. split; [done|]. intros j v' r' Hj Hlook.
        apply (Hbefore (S j) v' r'); [lia | done].
Qed.

Lemma first_violation_None rs :
  first_violation rs = None ↔ forallb (λ r, negb r.1) rs = true.
Proof.
  induction rs as [|[[] r] rs IH]; simpl; [done | done | exact IH].
Qed.

(** Rules that hold can be dropped from the front of the list. *)
Lemma first_violation_drop n rs :
  forallb (λ r, negb r.1) (take n rs) = true →
  first_violation rs = first_violation (drop n rs).
Proof.
  revert rs. induction n as [|n IH]; intros [|[[] r] rs]; simpl; try done.
  apply IH.
Qed.

(** At most one position is the first failing one. *)
Lemma fails_first_at_unique rs k k' e e' :
  fails_first_at rs k e → fails_first_at rs k' e' → k = k' ∧ e = e'.
Proof.
  intros [Hk Hbefore] [Hk' Hbefore'].
  destruct (Nat.lt_trichotomy k k') as [Hlt | [-> | Hlt]].
  - by specialize (Hbefore' k true e Hlt Hk).
  - split; congruence.
  - by specialize (Hbefore k' true e' Hlt Hk').
Qed.
End first_violation_facts.

Section policy.
Context `{PyRuntime} `{Auth}.
Implicit Types (user : User) (d : CleanedData) (e : ValidationError).

(** [clean] reports the first violated rule of [rules], and returns the
    cleaned data when there is none. *)
Lemma clean_first_violation user d :
  clean user d = outcome d (first_violation (rules user d)).
Proof.
  unfold clean, rules, first_violation, outcome.
  unfold old_password_wrong, password_unchanged, case_mix_missing, too_short,
    digit_missing, special_missing, identity_leaked.
  destruct (check_password user (old_password d)); cbn [negb orb andb]; [|done].
  destruct (bool_decide (new_password1 d = old_password d)); cbn [negb orb andb]; [done|].
  destruct (re_search_plus re_lower_az (new_password1 d)); cbn [negb orb andb]; [|done].
  destruct (re_search_plus re_upper_AZ (new_password1 d)); cbn [negb orb andb]; [|done].
  rewrite Nat.ltb_antisym.
  destruct (MIN_LENGTH <=? length (new_password1 d))%nat; cbn [negb orb andb]; [|done].
  destruct (re_search_plus re_digit (new_password1 d)); cbn [negb orb andb]; [|done].
  destruct (re_search_plus re_special (new_password1 d)); cbn [negb orb andb]; [|done].
  destruct (str_in (str_lower (first_name user)) _),
           (str_in (str_lower (last_name user)) _),
           (str_in (str_lower (username user)) _); done.
Qed.

(** Once the first [n] checks pass, [clean] is decided by the rest. *)
Lemma clean_after_passes n user d :
  passes_first n user d = true →
  clean user d = outcome d (first_violation (drop n (rules user d))).
Proof.
  intros Hpass. rewrite clean_first_violation.
  by rewrite (first_violation_drop n).
Qed.

(** [passes_first], spelled out on the code's own tests. *)
Lemma passes_first_3 user d :
  passes_first 3 user d = true ↔
    check_password user (old_password d) = true
    ∧ new_password1 d ≠ old_password d
    ∧ re_search_plus re_lower_az (new_password1 d) = true
    ∧ re_search_plus re_upper_AZ (new_password1 d) = true.
Proof.
  unfold passes_first, rules. simpl.
  unfold old_password_wrong, password_unchanged, case_mix_missing.
  rewrite !andb_true_iff, !negb_true_iff, !negb_false_iff, bool_decide_eq_false.
  rewrite andb_true_iff. tauto.
Qed.

Lemma passes_first_S n user d v e :
  rules user d !! n = Some (v, e) →
  passes_first (S n) user d = passes_first n user d && negb v.
Proof.
  intros Hn. unfold passes_first.
  rewrite (take_S_r _ _ _ Hn), forallb_app. simpl. by rewrite andb_true_r.
Qed.

Lemma passes_first_6 user d :
  passes_first 6 user d = true ↔
    passes_first 3 user d = true
    ∧ (MIN_LENGTH ≤ length (new_password1 d))%nat
    ∧ re_search_plus re_digit (new_password1 d) = true
    ∧ re_search_plus re_special (new_password1 d) = true.
Proof.
  rewrite (passes_first_S 5 user d _ _ eq_refl), (passes_first_S 4 user d _ _ eq_refl),
    (passes_first_S 3 user d _ _ eq_refl).
  unfold too_short, digit_missing, special_missing.
  rewrite !andb_true_iff, !negb_involutive, Nat.leb_le. tauto.
Qed.
End policy.

Section policy_claims.
Context `{PyRuntime} `{Auth}.
Implicit Types (user : User) (d : CleanedData) (e : ValidationError).

Lemma re_special_spec (c : char) :
  re_special c = true ↔ c = ord "@" ∨ c = ord "#" ∨ c = ord "$".
Proof. unfold re_special. rewrite !orb_true_iff, !N.eqb_eq. tauto. Qed.

Lemma re_digit_ascii (c : char) :
  (ord "0" <=? c) && (c <=? ord "9") = true → re_digit c = true.
Proof. unfold re_digit. by intros ->. Qed.

(** After six passed checks only the identity test is left. *)
Lemma clean_identity_rule user d :
  passes_first 6 user d = true →
  clean user d = if identity_leaked user d then inl ContainsIdentityFragment else inr d.
Proof.
  intros Hpass. rewrite (clean_after_passes 6) by done.
  cbn [rules drop first_violation]. by destruct (identity_leaked user d).
Qed.

(** C1. [clean] applies the seven rules in the fixed order old password,
    no-op, case mix, length, digit, special character, identity: it raises
    the reason [e] exactly when some rule reporting [e] is violated while
    every rule before it holds; that first failing position is unique, so
    one reason is raised however many rules are violated together; and the
    cleaned data is returned exactly when all seven rules hold. *)
Theorem clean_fixed_order user d :
  (rules user d).*2 =
    [WrongOldPassword; PasswordUnchanged; MissingCaseMix; TooShort;
     MissingDigit; MissingSpecialChar; ContainsIdentityFragment]
  ∧ (∀ e, clean user d = inl e ↔ ∃ k, fails_first_at (rules user d) k e)
  ∧ (∀ k k' e e', fails_first_at (rules user d) k e →
       fails_first_at (rules user d) k' e' → k = k' ∧ e = e')
  ∧ (∀ d', clean user d = inr d' ↔ d' = d ∧ passes_first 7 user d = true).
Proof.
  split; [reflexivity|]. split; [|split].
  - intros e. rewrite clean_first_violation, <- first_violation_Some.
    destruct (first_violation (rules user d)); simpl; split; congruence.
  - intros k k' e e'. apply fails_first_at_unique.
  - intros d'. rewrite clean_first_violation. unfold passes_first.
    rewrite firstn_all2 by (simpl; lia). rewrite <- first_violation_None.
    destruct (first_violation (rules user d)); simpl; split.
    + done.
    + by intros [_ ?].
    + by intros [= ->].
    + by intros [-> _].
Qed.

(** C3. If the old password does not verify, [clean] raises
    [WrongOldPassword], whatever the new password is. *)
Theorem clean_wrong_old_password user d :
  check_password user (old_password d) = false →
  clean user d = inl WrongOldPassword.
Proof. intros Hold. unfold clean. by rewrite Hold. Qed.

(** C4. If the new password equals the old one, [clean] raises
    [PasswordUnchanged] when the old password verifies; the comparison is
    reached only then: when the old password does not verify the result is
    [WrongOldPassword]. *)
Theorem clean_password_unchanged user d :
  new_password1 d = old_password d →
  clean user d =
    if check_password user (old_password d) then inl PasswordUnchanged
    else inl WrongOldPassword.
Proof.
  intros Hsame. unfold clean.
  destruct (check_password user (old_password d)); simpl; [|done].
  by rewrite bool_decide_eq_true_2.
Qed.

(** C8. A new password that passes the first three checks (old password
    verifies, new differs from old, mixed ASCII case) and is shorter than 14
    characters is rejected with [TooShort]. *)
Theorem clean_too_short user d :
  passes_first 3 user d = true →
  (length (new_password1 d) < 14)%nat →
  clean user d = inl TooShort.
Proof.
  intros Hpass Hlen. rewrite (clean_after_passes 3) by done.
  cbn [rules drop first_violation]. unfold too_short.
  replace (MIN_LENGTH <=? length (new_password1 d))%nat with false; [done|].
  symmetry. apply Nat.leb_gt. exact Hlen.
Qed.

(** C7. For a new password that passes the first five checks, [clean]
    raises [MissingSpecialChar] if and only if none of its characters is
    [@], [#] or [$]. *)
Theorem clean_missing_special_char user d :
  passes_first 5 user d = true →
  clean user d = inl MissingSpecialChar ↔
  Forall (λ c, c ≠ ord "@" ∧ c ≠ ord "#" ∧ c ≠ ord "$") (new_password1 d).
Proof.
  intros Hpass. rewrite (clean_after_passes 5) by done.
  cbn [rules drop first_violation]. unfold special_missing.
  destruct (re_search_plus re_special (new_password1 d)) eqn:Hsearch; cbn [negb].
  - apply re_search_plus_spec in Hsearch as (c & Hc & Hcls).
    apply re_special_spec in Hcls. split.
    + destruct (identity_leaked user d); done.
    + intros Hall. rewrite Forall_forall in Hall.
      destruct (Hall c Hc) as (? & ? & ?). by destruct Hcls as [? | [? | ?]].
  - split; [intros _ | done]. apply Forall_forall. intros c Hc.
    assert (re_special c = true → False) as Hno.
    { intros Hcls. assert (re_search_plus re_special (new_password1 d) = true) as Ht
        by (apply re_search_plus_spec; eauto). congruence. }
    rewrite re_special_spec in Hno. naive_solver.
Qed.

(** C6. A new password that passes the first six checks and whose
    lower-cased form contains the lower-cased username, first name or last
    name is rejected with [ContainsIdentityFragment]. *)
Theorem clean_identity_fragment user d :
  passes_first 6 user d = true →
  str_in (str_lower (username user)) (str_lower (new_password1 d)) = true
  ∨ str_in (str_lower (first_name user)) (str_lower (new_password1 d)) = true
  ∨ str_in (str_lower (last_name user)) (str_lower (new_password1 d)) = true →
  clean user d = inl ContainsIdentityFragment.
Proof.
  intros Hpass Hin. rewrite (clean_identity_rule _ _ Hpass).
  unfold identity_leaked. destruct Hin as [-> | [-> | ->]]; by rewrite ?orb_true_r.
Qed.

(** C2. What the code does where the claim expects acceptance: when the
    first name is blank and the law of [str.lower] on ASCII text holds,
    every new password that passes the first six checks is rejected with
    [ContainsIdentityFragment], since the empty string occurs in every
    string. *)
Theorem clean_blank_first_name_rejected user d :
  lower_on_ascii →
  first_name user = [] →
  passes_first 6 user d = true →
  clean user d = inl ContainsIdentityFragment.
Proof.
  intros Hlow Hblank Hpass. rewrite (clean_identity_rule _ _ Hpass).
  unfold identity_leaked.
  by rewrite Hblank, (str_lower_empty Hlow), str_in_empty, orb_true_r.
Qed.
End policy_claims.

Section blank_name.
Context `{PyRuntime} `{Auth}.

Lemma str_lower_text (s : string) :
  lower_on_ascii → forallb is_ascii (text s) = true →
  str_lower (text s) = ascii_lower (text s).
Proof. intros Hlow Hs. by apply Hlow. Qed.

(** C5. Where the code departs from the claim: for the user [anon], whose
    first name is blank, the new password "Str0ng#Pass2024" satisfies all
    seven rules as the specification words them (the old password verifies,
    new differs from old, mixed case, 15 characters, a digit, a [#], and no
    non-empty identity field occurs in it), and [clean] raises
    [ContainsIdentityFragment] instead of returning the cleaned data. *)
Theorem compliant_password_rejected_for_blank_first_name :
  lower_on_ascii →
  check_password anon (text "OldPassw0rd##1") = true →
  passes_first 6 anon (change "Str0ng#Pass2024") = true
  ∧ spec_identity_leaked anon (change "Str0ng#Pass2024") = false
  ∧ clean anon (change "Str0ng#Pass2024") = inl ContainsIdentityFragment.
Proof.
  intros Hlow Hold.
  assert (passes_first 6 anon (change "Str0ng#Pass2024") = true) as Hpass.
  { apply passes_first_6.
    split; [apply passes_first_3; split; [|split; [|split]] | split; [|split]].
    - exact Hold.
    - discriminate.
    - by vm_compute.
    - by vm_compute.
    - vm_compute. lia.
    - apply re_search_plus_spec. exists (ord "0"). split; [|by apply re_digit_ascii].
      vm_compute. do 3 apply list_elem_of_further. apply list_elem_of_here.
    - by vm_compute. }
  split; [done|]. split.
  - unfold spec_identity_leaked, field_leaked.
    change (first_name anon) with (@nil N).
    change (username anon) with (text "jdoe").
    change (last_name anon) with (text "Doe").
    change (new_password1 (change "Str0ng#Pass2024")) with (text "Str0ng#Pass2024").
    rewrite !str_lower_text by done. by vm_compute.
  - rewrite (clean_identity_rule _ _ Hpass). unfold identity_leaked.
    change (first_name anon) with (@nil N).
    by rewrite (str_lower_empty Hlow), str_in_empty, orb_true_r.
Qed.
End blank_name.

(* ===================================================================== *)
(** * The policy on concrete requests *)
(* ===================================================================== *)

Lemma clean_fixed_order_witness :
  @clean ascii_runtime plain_auth jdoe (change "short") = inl MissingCaseMix
  ∧ too_short (change "short") = true
  ∧ @digit_missing ascii_runtime (change "short") = true
  ∧ special_missing (change "short") = true.
Proof.
  split; [|by vm_compute].
  apply (proj1 (proj2 (@clean_fixed_order ascii_runtime plain_auth jdoe (change "short")))).
  exists 2%nat. split; [reflexivity|].
  intros [|[|j]] v r Hj Hlook; [by injection Hlook as <- | by injection Hlook as <- | lia].
Defined.

Lemma clean_wrong_old_password_witness :
  @check_password plain_auth jdoe (text "guess") = false
  ∧ @clean ascii_runtime plain_auth jdoe
      (mkCleanedData (text "guess") (text "Str0ng#Pass2024") (text "Str0ng#Pass2024"))
    = inl WrongOldPassword.
Proof.
  split; [reflexivity|].
  apply (@clean_wrong_old_password ascii_runtime plain_auth). reflexivity.
Defined.

Lemma clean_password_unchanged_witness :
  new_password1 (change "OldPassw0rd##1") = old_password (change "OldPassw0rd##1")
  ∧ @clean ascii_runtime plain_auth jdoe (change "OldPassw0rd##1") = inl PasswordUnchanged.
Proof.
  split; [reflexivity|].
  apply (@clean_password_unchanged ascii_runtime plain_auth jdoe (change "OldPassw0rd##1")).
  reflexivity.
Defined.

(** "short1A@" has a digit and a special character and contains no identity
    field: only its length is at fault. *)
Lemma clean_too_short_witness :
  @passes_first ascii_runtime plain_auth 3 jdoe (change "short1A@") = true
  ∧ length (new_password1 (change "short1A@")) = 8%nat
  ∧ @digit_missing ascii_runtime (change "short1A@") = false
  ∧ special_missing (change "short1A@") = false
  ∧ @identity_leaked ascii_runtime jdoe (change "short1A@") = false
  ∧ @clean ascii_runtime plain_auth jdoe (change "short1A@") = inl TooShort.
Proof.
  repeat (split; [reflexivity|]).
  apply (@clean_too_short ascii_runtime plain_auth); [reflexivity | vm_compute; lia].
Defined.

Lemma clean_missing_special_char_witness :
  @passes_first ascii_runtime plain_auth 5 jdoe (change "ValidLength1234") = true
  ∧ @clean ascii_runtime plain_auth jdoe (change "ValidLength1234") = inl MissingSpecialChar.
Proof.
  split; [reflexivity|].
  apply (@clean_missing_special_char ascii_runtime plain_auth); [reflexivity|].
  vm_compute. repeat (constructor; [by repeat split|]). constructor.
Defined.

Lemma clean_identity_fragment_witness :
  @passes_first ascii_runtime plain_auth 6 jdoe (change "MyJohnPass12@@") = true
  ∧ str_in (ascii_lower (first_name jdoe)) (ascii_lower (text "MyJohnPass12@@")) = true
  ∧ @clean ascii_runtime plain_auth jdoe (change "MyJohnPass12@@")
    = inl ContainsIdentityFragment.
Proof.
  repeat (split; [reflexivity|]).
  apply (@clean_identity_fragment ascii_runtime plain_auth); [reflexivity|].
  right; left. reflexivity.
Defined.

Lemma clean_blank_first_name_rejected_witness :
  first_name anon = []
  ∧ @passes_first ascii_runtime plain_auth 6 anon (change "Str0ng#Pass2024") = true
  ∧ @spec_identity_leaked ascii_runtime anon (change "Str0ng#Pass2024") = false
  ∧ @clean ascii_runtime plain_auth anon (change "Str0ng#Pass2024")
    = inl ContainsIdentityFragment.
Proof.
  repeat (split; [reflexivity|]).
  apply (@clean_blank_first_name_rejected ascii_runtime plain_auth);
    [apply ascii_runtime_lower_on_ascii | reflexivity | reflexivity].
Defined.

Lemma compliant_password_rejected_witness :
  @check_password plain_auth anon (text "OldPassw0rd##1") = true
  ∧ @clean ascii_runtime plain_auth anon (change "Str0ng#Pass2024")
    = inl ContainsIdentityFragment.
Proof.
  split; [reflexivity|].
  apply (@compliant_password_rejected_for_blank_first_name ascii_runtime plain_auth);
    [apply ascii_runtime_lower_on_ascii | reflexivity].
Defined.

(** With every name filled in, the same request is accepted. *)
Example compliant_password_accepted :
  @clean ascii_runtime plain_auth jdoe (change "Str0ng#Pass2024")
  = inr (change "Str0ng#Pass2024").
Proof. reflexivity. Qed.

(* ===================================================================== *)
(** * User provisioning *)
(* ===================================================================== *)

Section provisioning.
Implicit Types (u : User) (db : DB) (k : N).

Lemma save_target_created u db k :
  save_target u db = (k, true) → users db !! k = None.
Proof.
  unfold save_target. destruct (id u) as [k'|].
  - intros [= -> Hnone]. by apply bool_decide_eq_true in Hnone.
  - intros [= <-]. apply not_elem_of_dom, is_fresh.
Qed.

Lemma save_target_updated u db k :
  save_target u db = (k, false) → id u = Some k ∧ is_Some (users db !! k).
Proof.
  unfold save_target. destruct (id u) as [k'|]; [|done].
  intros [= -> Hsome]. apply bool_decide_eq_false in Hsome.
  split; [done|]. by apply not_eq_None_Some.
Qed.

(** A user without a row has no profile, in a database whose profiles all
    point to rows. *)
Lemma profiles_of_unsaved db k :
  profiles_reference_users db → users db !! k = None → profiles_of k db = ∅.
Proof.
  intros Hwf Hnone. apply map_empty_filter_2. intros i row Hrow Hk.
  simpl in Hk. specialize (Hwf i row Hrow). simpl in Hwf.
  rewrite Hk, Hnone in Hwf. by destruct Hwf.
Qed.

(** The receiver does nothing for a save that created no row. *)
Lemma create_user_profile_not_created u db :
  create_user_profile u false db = (inr (), db).
Proof. reflexivity. Qed.

(** The receiver writes one row for a new user who has no profile yet. *)
Lemma create_user_profile_created u db k :
  id u = Some k → profiles_of k db = ∅ →
  create_user_profile u true db =
    (inr (), mkDB (users db) (<[fresh (dom (profiles db)) := new_profile k]> (profiles db))).
Proof.
  intros Hid Hnone. unfold create_user_profile, UserProfile_objects_create.
  unfold mbind, M_bind, mret, M_ret. rewrite Hid.
  by rewrite bool_decide_eq_true_2.
Qed.

(** The profiles of [k] once a row for [k] has been added under a key that
    was free. *)
Lemma profiles_of_insert_new db tbl k :
  profiles_of k db = ∅ →
  profiles_of k (mkDB tbl (<[fresh (dom (profiles db)) := new_profile k]> (profiles db)))
  = {[ fresh (dom (profiles db)) := new_profile k ]}.
Proof.
  intros Hnone. unfold profiles_of in *. simpl.
  rewrite map_filter_insert_True by done. by rewrite Hnone.
Qed.

Lemma profiles_of_insert_other db tbl k j :
  j ≠ k →
  profiles_of j (mkDB tbl (<[fresh (dom (profiles db)) := new_profile k]> (profiles db)))
  = profiles_of j db.
Proof.
  intros Hne. unfold profiles_of. simpl.
  apply map_filter_insert_not'; simpl; [congruence|].
  intros row Hrow. pose proof (is_fresh (dom (profiles db))) as Hfresh.
  apply not_elem_of_dom in Hfresh. congruence.
Qed.

(** What [User_save] does in each of its three cases. *)
Lemma User_save_refused u db k created :
  save_target u db = (k, created) → ¬ User_unique k u (users db) →
  User_save u db = (inl IntegrityError, db).
Proof.
  intros Htarget Hdup. unfold User_save. rewrite Htarget.
  by rewrite bool_decide_eq_false_2.
Qed.

Lemma User_save_update u db k :
  save_target u db = (k, false) → User_unique k u (users db) →
  User_save u db = (inr (with_id k u), mkDB (<[k := with_id k u]> (users db)) (profiles db)).
Proof.
  intros Htarget Huniq. unfold User_save. rewrite Htarget.
  by rewrite bool_decide_eq_true_2.
Qed.

Lemma User_save_insert u db k :
  profiles_reference_users db →
  save_target u db = (k, true) → User_unique k u (users db) →
  User_save u db =
    (inr (with_id k u),
     mkDB (<[k := with_id k u]> (users db))
          (<[fresh (dom (profiles db)) := new_profile k]> (profiles db))).
Proof.
  intros Hwf Htarget Huniq. unfold User_save. rewrite Htarget.
  rewrite bool_decide_eq_true_2 by done.
  unfold mbind, M_bind.
  rewrite (create_user_profile_created _ _ k); [done | done |].
  unfold profiles_of. simpl.
  apply (profiles_of_unsaved db k Hwf), (save_target_created u), Htarget.
Qed.

(** A save the unique columns allow succeeds. *)
Lemma User_save_succeeds u db k created :
  profiles_reference_users db →
  save_target u db = (k, created) → User_unique k u (users db) →
  ∃ db', User_save u db = (inr (with_id k u), db').
Proof.
  intros Hwf Htarget Huniq. destruct created; eexists.
  - by apply User_save_insert.
  - by apply User_save_update.
Qed.

(** [User_save] raises nothing but [IntegrityError]. *)
Lemma User_save_no_value_error u db msg :
  (User_save u db).1 ≠ inl (ValueError msg).
Proof.
  unfold User_save. destruct (save_target u db) as [k created].
  case_bool_decide; [|done]. unfold mbind, M_bind.
  destruct created; [|done].
  unfold create_user_profile, UserProfile_objects_create, mbind, M_bind. simpl.
  by case_bool_decide.
Qed.
End provisioning.

Section provisioning_claims.
Implicit Types (u : User) (db : DB) (k : N).

(** Writing a user row keeps every profile pointing to a row. *)
Lemma profiles_reference_users_insert_user db k u :
  profiles_reference_users db →
  profiles_reference_users (mkDB (<[k := u]> (users db)) (profiles db)).
Proof.
  unfold profiles_reference_users. simpl. intros Hwf.
  apply (map_Forall_impl _ _ _ Hwf).
  intros _ row Hrow. rewrite lookup_insert_is_Some.
  destruct (decide (k = user_id row)); auto.
Qed.

(** C9. In a database whose profiles all point to user rows, a save that
    the unique columns allow succeeds, and: when it creates the row
    ([created] is true) the user had no profile before and has exactly one
    after, the profile table has grown by that one row, and no other user's
    profiles have changed; when it updates an existing row ([created] is
    false) the profile table is unchanged. *)
Theorem first_save_creates_one_profile u db k created :
  profiles_reference_users db →
  save_target u db = (k, created) →
  User_unique k u (users db) →
  ∃ db', User_save u db = (inr (with_id k u), db')
    ∧ users db' !! k = Some (with_id k u)
    ∧ profiles_reference_users db'
    ∧ if created
      then profiles_of k db = ∅
           ∧ size (profiles_of k db') = 1%nat
           ∧ size (profiles db') = S (size (profiles db))
           ∧ (∀ j, j ≠ k → profiles_of j db' = profiles_of j db)
      else profiles db' = profiles db.
Proof.
  intros Hwf Htarget Huniq. destruct created.
  - pose proof (save_target_created _ _ _ Htarget) as Hnew.
    pose proof (profiles_of_unsaved _ _ Hwf Hnew) as Hnone.
    eexists. split; [by apply User_save_insert|]. simpl.
    split; [apply lookup_insert_eq|]. split; [|split; [done|split; [|split]]].
    + apply map_Forall_insert_2; simpl.
      * rewrite lookup_insert_eq. by eexists.
      * by apply (profiles_reference_users_insert_user db k (with_id k u)).
    + rewrite profiles_of_insert_new by done. apply map_size_singleton.
    + apply map_size_insert_None, not_elem_of_dom, is_fresh.
    + intros j Hj. by apply profiles_of_insert_other.
  - eexists. split; [by apply User_save_update|]. simpl.
    split; [apply lookup_insert_eq|]. split; [|done].
    by apply profiles_reference_users_insert_user.
Qed.

Context `{Auth}.
Implicit Types (first last : str) (mail name pw : option str).

(** C10. [create_user] raises [ValueError] exactly when the email or the
    username is falsy, the email being tested first; the database is then
    untouched. Blank first and last names play no part. When it
    returns, the returned user is the row stored under its key, with the
    hash of the given password and the given fields; and it does return
    whenever email and username are given, no row has the same username or
    email, and every profile points to a user row. *)
Theorem create_user_value_error first last mail name pw db :
  ((∃ msg, (create_user first last mail name pw db).1 = inl (ValueError msg))
     ↔ falsy mail = true ∨ falsy name = true)
  ∧ (falsy mail = true →
       create_user first last mail name pw db
       = (inl (ValueError "Users must have an email address"), db))
  ∧ (falsy mail = false → falsy name = true →
       create_user first last mail name pw db
       = (inl (ValueError "Users must have a username"), db))
  ∧ (∀ u db', create_user first last mail name pw db = (inr u, db') →
       ∃ k e n, mail = Some e ∧ name = Some n ∧ id u = Some k
         ∧ users db' !! k = Some u
         ∧ password u = make_password pw
         ∧ first_name u = first ∧ last_name u = last
         ∧ username u = n ∧ email u = normalize_email e)
  ∧ (∀ e n, mail = Some e → name = Some n → e ≠ [] → n ≠ [] →
       profiles_reference_users db →
       map_Forall (λ _ row, username row ≠ n ∧ email row ≠ normalize_email e) (users db) →
       ∃ u db', create_user first last mail name pw db = (inr u, db')).
Proof.
  unfold create_user.
  destruct mail as [[|c e]|]; [| |].
  1,3: (split; [split; [intros _; by left | intros _; by eexists] |];
        split; [done|]; split; [done|]; split; [done|]; intros; simplify_eq).
  destruct name as [[|c' n]|]; [| |].
  1,3: (split; [split; [intros _; by right | intros _; by eexists] |];
        split; [done|]; split; [done|]; split; [done|]; intros; simplify_eq).
  split; [|split; [done|split; [done|split]]].
  - split; [|by intros [?|?]].
    intros (msg & Hmsg). by apply User_save_no_value_error in Hmsg.
  - intros u db'. unfold User_save.
    destruct (save_target _ db) as [k created]. case_bool_decide; [|done].
    unfold mbind, M_bind.
    destruct (create_user_profile _ created _) as [[ex|[]] db1] eqn:Hrecv; [done|].
    intros [= <- <-]. exists k, (c :: e), (c' :: n).
    assert (users db1 = <[k := with_id k
      (set_password (User_model first last (normalize_email (c :: e)) (c' :: n)) pw)]> (users db))
      as ->.
    { destruct created; [|by injection Hrecv as <-].
      unfold create_user_profile, UserProfile_objects_create, mbind, M_bind in Hrecv.
      simpl in Hrecv. case_bool_decide; [|done]. by injection Hrecv as <-. }
    rewrite lookup_insert_eq. done.
  - intros e0 n0 [= <-] [= <-] _ _ Hwf Hfree.
    set (u := set_password (User_model first last (normalize_email (c :: e)) (c' :: n)) pw).
    destruct (save_target u db) as [k created] eqn:Htarget.
    destruct (User_save_succeeds u db k created) as (db' & Hsave); [done..| |eauto].
    intros k' row Hrow. right. apply (Hfree k' row Hrow).
Qed.
End provisioning_claims.

(* ===================================================================== *)
(** * Provisioning on a concrete database *)
(* ===================================================================== *)

(** The first save of [alice] into the empty database gives her one
    profile; saving her again leaves the profile table as it is. *)
Lemma first_save_creates_one_profile_witness :
  profiles_reference_users empty_db
  ∧ save_target alice empty_db = (0, true)
  ∧ User_unique 0 alice (users empty_db)
  ∧ size (profiles_of 0 (User_save alice empty_db).2) = 1%nat
  ∧ save_target (with_id 0 alice) (User_save alice empty_db).2 = (0, false)
  ∧ profiles (User_save (with_id 0 alice) (User_save alice empty_db).2).2
    = profiles (User_save alice empty_db).2.
Proof.
  assert (profiles_reference_users empty_db) as Hwf by apply map_Forall_empty.
  assert (User_unique 0 alice (users empty_db)) as Huniq by apply map_Forall_empty.
  split; [done|]. split; [reflexivity|]. split; [done|].
  destruct (first_save_creates_one_profile alice empty_db 0 true Hwf eq_refl Huniq)
    as (db1 & Hsave & Hrow & Hwf1 & _ & Hone & _).
  rewrite Hsave. simpl. split; [exact Hone|].
  assert (save_target (with_id 0 alice) db1 = (0, false)) as Htarget.
  { unfold save_target. simpl. by rewrite Hrow. }
  split; [exact Htarget|].
  assert (User_unique 0 (with_id 0 alice) (users db1)) as Huniq1.
  { injection Hsave as <-. simpl. apply map_Forall_insert_2; [by left|].
    apply map_Forall_empty. }
  destruct (first_save_creates_one_profile (with_id 0 alice) db1 0 false Hwf1 Htarget Huniq1)
    as (db2 & Hsave2 & _ & _ & Hsame).
  rewrite Hsave2. exact Hsame.
Defined.

(** [create_user] with blank names, an email and a username succeeds on the
    empty database, and without an email it raises the email error even
    though the username is missing too. *)
Lemma create_user_value_error_witness :
  (∃ u db', @create_user plain_auth [] [] (Some (text "alice@example.org"))
              (Some (text "alice")) (Some (text "Str0ng#Pass2024")) empty_db
            = (inr u, db'))
  ∧ @create_user plain_auth [] [] None None (Some (text "Str0ng#Pass2024")) empty_db
    = (inl (ValueError "Users must have an email address"), empty_db).
Proof.
  split.
  - apply (proj2 (proj2 (proj2 (proj2
      (@create_user_value_error plain_auth [] [] (Some (text "alice@example.org"))
         (Some (text "alice")) (Some (text "Str0ng#Pass2024")) empty_db))))
      (text "alice@example.org") (text "alice")); done || apply map_Forall_empty.
  - apply (proj1 (proj2
      (@create_user_value_error plain_auth [] [] None None
         (Some (text "Str0ng#Pass2024")) empty_db))).
    reflexivity.
Defined.

(* ===================================================================== *)
(** * More on the password policy *)
(* ===================================================================== *)

Section policy_more.
Context `{PyRuntime} `{Auth}.
Implicit Types (user : User) (d : CleanedData) (e : ValidationError).

(** A search for [cls+] fails exactly when no character is in the class. *)
Lemma re_search_plus_false (cls : char → bool) (s : str) :
  re_search_plus cls s = false ↔ Forall (λ c, cls c = false) s.
Proof.
  induction s as [|a s IH]; simpl.
  - split; [constructor | done].
  - rewrite orb_false_iff, IH, Forall_cons. done.
Qed.

(** Once the checks before position [n] pass, the reason of rule [n] is
    raised exactly when rule [n] is violated: no later rule reports it. *)
Lemma clean_raises_iff n user d v e :
  rules user d !! n = Some (v, e) →
  passes_first n user d = true →
  clean user d = inl e ↔ v = true.
Proof.
  intros Hn Hpass. rewrite (clean_after_passes n) by done. clear Hpass.
  do 7 (destruct n as [|n];
    [ injection Hn as <- <-; cbn [rules drop first_violation];
      repeat match goal with
             | |- context [if ?b then _ else _] => destruct b; cbn [outcome]
             end; split; congruence |]).
  done.
Qed.

(** X1. After two passed checks, [MissingCaseMix] is raised if and only if the
    new password has no character in [a-z] or none in [A-Z]. *)
Theorem clean_missing_case_mix user d :
  passes_first 2 user d = true →
  clean user d = inl MissingCaseMix ↔
  Forall (λ c, re_lower_az c = false) (new_password1 d)
  ∨ Forall (λ c, re_upper_AZ c = false) (new_password1 d).
Proof.
  intros Hpass. rewrite (clean_raises_iff 2 user d _ _ eq_refl Hpass).
  unfold case_mix_missing.
  rewrite negb_true_iff, andb_false_iff, !re_search_plus_false. done.
Qed.

(** X2. After four passed checks, [MissingDigit] is raised if and only if no
    character of the new password is in the class [\d]. *)
Theorem clean_missing_digit user d :
  passes_first 4 user d = true →
  clean user d = inl MissingDigit ↔
  Forall (λ c, re_digit c = false) (new_password1 d).
Proof.
  intros Hpass. rewrite (clean_raises_iff 4 user d _ _ eq_refl Hpass).
  unfold digit_missing. by rewrite negb_true_iff, re_search_plus_false.
Qed.

(** When [clean] returns, no rule is violated. *)
Lemma clean_inr_passes user d d' :
  clean user d = inr d' → d' = d ∧ passes_first 6 user d = true
                          ∧ identity_leaked user d = false.
Proof.
  rewrite clean_first_violation.
  destruct (first_violation (rules user d)) eqn:Hfirst; [done|].
  intros [= <-]. split; [done|].
  apply first_violation_None in Hfirst.
  change (rules user d) with
    (take 6 (rules user d) ++ [(identity_leaked user d, ContainsIdentityFragment)]) in Hfirst.
  rewrite forallb_app, andb_true_iff in Hfirst. destruct Hfirst as [Hsix Hlast].
  split; [exact Hsix|]. simpl in Hlast.
  by destruct (identity_leaked user d).
Qed.

(** X3. What an accepted request looks like: the data comes back unchanged, the
    old password verifies, the new one differs from it, has at least 14
    characters, has a character in [a-z], one in [A-Z], one in [\d] and one
    of [@#$], and its lower-cased form contains the lower-cased form of none
    of the three identity fields. *)
Theorem clean_accepts_only_compliant user d d' :
  clean user d = inr d' →
  d' = d
  ∧ check_password user (old_password d) = true
  ∧ new_password1 d ≠ old_password d
  ∧ (14 ≤ length (new_password1 d))%nat
  ∧ (∃ c, c ∈ new_password1 d ∧ ord "a" ≤ c ≤ ord "z")
  ∧ (∃ c, c ∈ new_password1 d ∧ ord "A" ≤ c ≤ ord "Z")
  ∧ (∃ c, c ∈ new_password1 d ∧ re_digit c = true)
  ∧ (∃ c, c ∈ new_password1 d ∧ (c = ord "@" ∨ c = ord "#" ∨ c = ord "$"))
  ∧ ∀ field, field ∈ [username user; first_name user; last_name user] →
      ¬ ∃ l r, str_lower (new_password1 d) = l ++ str_lower field ++ r.
Proof.
  intros Hclean. apply clean_inr_passes in Hclean as (-> & Hsix & Hid).
  apply passes_first_6 in Hsix as (Hthree & Hlen & Hdigit & Hspecial).
  apply passes_first_3 in Hthree as (Hold & Hneq & Hlower & Hupper).
  apply re_search_plus_spec in Hlower as (cl & Hcl & Hl).
  apply re_search_plus_spec in Hupper as (cu & Hcu & Hu).
  apply re_search_plus_spec in Hdigit as (cd & Hcd & Hd).
  apply re_search_plus_spec in Hspecial as (cs & Hcs & Hs).
  apply re_special_spec in Hs.
  unfold re_lower_az in Hl. unfold re_upper_AZ in Hu.
  apply andb_true_iff in Hl as [Hl1 Hl2]. apply andb_true_iff in Hu as [Hu1 Hu2].
  apply N.leb_le in Hl1, Hl2, Hu1, Hu2.
  do 4 (split; [done|]).
  split; [by exists cl|]. split; [by exists cu|]. split; [by exists cd|].
  split; [by exists cs|].
  intros field Hfield Hocc. apply str_in_spec in Hocc.
  unfold identity_leaked in Hid. apply orb_false_iff in Hid as [Hid Hlast].
  apply orb_false_iff in Hid as [Huser Hfirst].
  rewrite !elem_of_cons in Hfield.
  destruct Hfield as [-> | [-> | [-> | Hnil]]]; [congruence.. | inversion Hnil].
Qed.

(** Under the law of [str.lower] on ASCII text, a request [clean] returns
    for comes from a user whose three names are all filled in. *)
Lemma clean_inr_names user d d' :
  lower_on_ascii → clean user d = inr d' →
  username user ≠ [] ∧ first_name user ≠ [] ∧ last_name user ≠ [].
Proof.
  intros Hlow Hclean. apply clean_inr_passes in Hclean as (_ & _ & Hid).
  unfold identity_leaked in Hid. apply orb_false_iff in Hid as [Hid Hlast].
  apply orb_false_iff in Hid as [Huser Hfirst].
  repeat split; intros Hblank.
  - by rewrite Hblank, (str_lower_empty Hlow), str_in_empty in Huser.
  - by rewrite Hblank, (str_lower_empty Hlow), str_in_empty in Hfirst.
  - by rewrite Hblank, (str_lower_empty Hlow), str_in_empty in Hlast.
Qed.


Lemma ascii_lower_app (s t : str) : ascii_lower (s ++ t) = ascii_lower s ++ ascii_lower t.
Proof. apply fmap_app. Qed.

(** X5. The identity test ignores letter case on ASCII text: if an ASCII new
    password that passes the first six checks contains, anywhere, a run of
    characters equal up to ASCII letter case to the user's (ASCII) username,
    first name or last name, it is rejected with
    [ContainsIdentityFragment]. *)
Theorem clean_identity_any_case user d field l m r :
  lower_on_ascii →
  field ∈ [username user; first_name user; last_name user] →
  forallb is_ascii field = true →
  forallb is_ascii (new_password1 d) = true →
  passes_first 6 user d = true →
  new_password1 d = l ++ m ++ r →
  ascii_lower m = ascii_lower field →
  clean user d = inl ContainsIdentityFragment.
Proof.
  intros Hlow Hfield Hascii Hpw Hpass Hsplit Hsame.
  rewrite (clean_identity_rule _ _ Hpass).
  assert (str_in (str_lower field) (str_lower (new_password1 d)) = true) as Hin.
  { rewrite (Hlow _ Hascii), (Hlow _ Hpw), Hsplit, !ascii_lower_app, Hsame.
    apply str_in_spec. eauto. }
  unfold identity_leaked. rewrite !elem_of_cons in Hfield.
  destruct Hfield as [-> | [-> | [-> | Hnil]]]; [| | | inversion Hnil];
    by rewrite Hin, ?orb_true_r.
Qed.
End policy_more.

(* ===================================================================== *)
(** * More on saving and creating users *)
(* ===================================================================== *)

Section saving.
Implicit Types (u : User) (db : DB) (k : N).

(** What a successful [User_save] has done. *)
Lemma User_save_inr u db u' db' :
  User_save u db = (inr u', db') →
  ∃ k created,
    save_target u db = (k, created) ∧ User_unique k u (users db)
    ∧ u' = with_id k u
    ∧ users db' = <[k := with_id k u]> (users db)
    ∧ if created
      then profiles_of k db = ∅
           ∧ profiles db' = <[fresh (dom (profiles db)) := new_profile k]> (profiles db)
      else profiles db' = profiles db.
Proof.
  unfold User_save. destruct (save_target u db) as [k created].
  case_bool_decide as Huniq; [|done]. intros Hsave. exists k, created.
  do 2 (split; [done|]). destruct created.
  - unfold mbind, M_bind, create_user_profile, UserProfile_objects_create in Hsave.
    simpl in Hsave. unfold mbind, M_bind in Hsave.
    case_bool_decide as Hnone; [|done]. by injection Hsave as <- <-.
  - by injection Hsave as <- <-.
Qed.

(** What a failed [User_save] has done, in a database whose profiles all
    point to user rows: nothing. *)
Lemma User_save_inl u db e db' :
  profiles_reference_users db →
  User_save u db = (inl e, db') →
  e = IntegrityError ∧ db' = db ∧ ¬ User_unique (save_target u db).1 u (users db).
Proof.
  intros Hwf Hsave. destruct (save_target u db) as [k created] eqn:Htarget.
  destruct (decide (User_unique k u (users db))) as [Huniq | Hdup].
  - destruct (User_save_succeeds u db k created Hwf Htarget Huniq) as (db1 & Hok).
    congruence.
  - rewrite (User_save_refused u db k created Htarget Hdup) in Hsave.
    by injection Hsave as <- <-.
Qed.

Lemma User_unique_fails k u (tbl : gmap N User) :
  ¬ User_unique k u tbl ↔
  ∃ k' row, k' ≠ k ∧ tbl !! k' = Some row
            ∧ (username row = username u ∨ email row = email u).
Proof.
  unfold User_unique. rewrite map_not_Forall by (intros; apply _). split.
  - intros (k' & row & Hrow & Hbad). exists k', row.
    destruct (decide (k' = k)) as [-> | Hne]; [by destruct Hbad; left|].
    split; [done|]. split; [done|].
    destruct (decide (username row = username u)); [by left|].
    destruct (decide (email row = email u)); [by right|].
    destruct Hbad. by right.
  - intros (k' & row & Hne & Hrow & Hsame). exists k', row. split; [done|].
    intros [? | [? ?]]; [done|]. by destruct Hsame.
Qed.

(** [User_save] keeps the tables consistent, whether it returns or raises. *)
Lemma User_save_consistent u db r db' :
  consistent db → User_save u db = (r, db') → consistent db'.
Proof.
  intros (Hwf & Hkeys & Hcols & Hone) Hsave. destruct r as [e | u'].
  { apply User_save_inl in Hsave as (_ & -> & _); done. }
  apply User_save_inr in Hsave as (k & created & Htarget & Huniq & -> & Husers & Hprof).
  destruct db' as [us ps]. simpl in Husers, Hprof. subst us.
  assert (keys_match_ids (mkDB (<[k:=with_id k u]> (users db)) ps)) as Hkeys'.
  { unfold keys_match_ids. simpl. by apply map_Forall_insert_2. }
  assert (unique_columns (mkDB (<[k:=with_id k u]> (users db)) ps)) as Hcols'.
  { intros k1 k2 r1 r2. simpl. rewrite !lookup_insert_Some.
    intros [[<- <-] | [Hk1 Hr1]] [[<- <-] | [Hk2 Hr2]] Hsame; simpl in Hsame.
    - done.
    - destruct (Huniq k2 r2 Hr2) as [-> | [? ?]]; [done|]. destruct Hsame; congruence.
    - destruct (Huniq k1 r1 Hr1) as [-> | [? ?]]; [done|]. destruct Hsame; congruence.
    - by apply (Hcols k1 k2 r1 r2). }
  destruct created.
  - destruct Hprof as [Hnone ->]. split; [|split; [done|split; [done|]]].
    + apply map_Forall_insert_2; simpl.
      * rewrite lookup_insert_eq. by eexists.
      * by apply (profiles_reference_users_insert_user db k (with_id k u)).
    + intros j. simpl. rewrite lookup_insert_is_Some.
      intros [<- | [Hne Hj]].
      * rewrite profiles_of_insert_new by done. apply map_size_singleton.
      * rewrite profiles_of_insert_other by done. by apply Hone.
  - subst ps. split; [|split; [done|split; [done|]]].
    + by apply profiles_reference_users_insert_user.
    + intros j. simpl. intros Hj. change (size (profiles_of j db) = 1%nat).
      apply Hone. apply lookup_insert_is_Some in Hj as [<- | [_ Hj]]; [|done].
      by apply save_target_updated in Htarget as [_ ?].
Qed.

End saving.

Section manager.
Context `{Auth}.
Implicit Types (u : User) (db : DB) (k : N) (first last : str) (mail name pw : option str).

(** With an email and a username given, [create_user] is the save of the
    instance it builds. *)
Lemma create_user_given first last (e n : str) pw db :
  e ≠ [] → n ≠ [] →
  create_user first last (Some e) (Some n) pw db
  = User_save (set_password (User_model first last (normalize_email e) n) pw) db.
Proof. intros He Hn. unfold create_user. by destruct e, n. Qed.

Lemma create_user_cases first last mail name pw db :
  (∃ msg, create_user first last mail name pw db = (inl (ValueError msg), db))
  ∨ ∃ e n, mail = Some e ∧ name = Some n ∧ e ≠ [] ∧ n ≠ []
      ∧ create_user first last mail name pw db
        = User_save (set_password (User_model first last (normalize_email e) n) pw) db.
Proof.
  destruct mail as [[|c e]|]; [left; by eexists | | left; by eexists].
  destruct name as [[|c' n]|]; [left; by eexists | | left; by eexists].
  right. exists (c :: e), (c' :: n). done.
Qed.

(** What a successful [create_user] has done. *)
Lemma create_user_inr first last mail name pw db u db' :
  create_user first last mail name pw db = (inr u, db') →
  ∃ k e n,
    mail = Some e ∧ name = Some n ∧ e ≠ [] ∧ n ≠ []
    ∧ u = with_id k (set_password (User_model first last (normalize_email e) n) pw)
    ∧ users db !! k = None
    ∧ User_unique k u (users db)
    ∧ users db' = <[k := u]> (users db)
    ∧ profiles_of k db = ∅
    ∧ profiles db' = <[fresh (dom (profiles db)) := new_profile k]> (profiles db).
Proof.
  destruct (create_user_cases first last mail name pw db)
    as [(msg & ->) | (e & n & -> & -> & He & Hn & ->)]; [done|].
  intros Hsave.
  apply User_save_inr in Hsave as (k & created & Htarget & Huniq & -> & Husers & Hprof).
  assert (created = true) as -> by (by injection Htarget as _ <-).
  destruct Hprof as [Hnone Hprof]. exists k, e, n.
  do 5 (split; [done|]). split; [by apply (save_target_created _ _ _ Htarget)|].
  done.
Qed.

(** After a successful [create_user], saving the marked user again updates
    its row and nothing else. *)
Lemma resave_marked u db k :
  id u = Some k → users db !! k = Some u →
  (∀ k' row, users db !! k' = Some row →
     k' = k ∨ (username row ≠ username u ∧ email row ≠ email u)) →
  User_save (make_staff_superuser u) db
  = (inr (make_staff_superuser u),
     mkDB (<[k := make_staff_superuser u]> (users db)) (profiles db)).
Proof.
  intros Hid Hrow Huniq.
  assert (with_id k (make_staff_superuser u) = make_staff_superuser u) as Heta.
  { destruct u. simpl in Hid. by subst. }
  rewrite <- Heta at 2 3. apply User_save_update.
  - unfold save_target. simpl. rewrite Hid, Hrow. done.
  - exact Huniq.
Qed.

(** X9. [create_superuser] raises what [create_user] raises and leaves the
    database as [create_user] left it; in particular it raises [ValueError]
    whenever the username is left to its default. When [create_user]
    returns [u], [create_superuser] returns [u] marked as staff and
    superuser: the second save overwrites the row of [u] with it and adds
    no profile. *)
Theorem create_superuser_effect first last mail pw name db :
  (∀ e db1, create_user first last mail name pw db = (inl e, db1) →
     create_superuser first last mail pw name db = (inl e, db1))
  ∧ (name = None →
     ∃ msg, create_superuser first last mail pw name db = (inl (ValueError msg), db))
  ∧ (∀ u db1, create_user first last mail name pw db = (inr u, db1) →
     ∃ k, id u = Some k
       ∧ create_superuser first last mail pw name db
         = (inr (make_staff_superuser u),
            mkDB (<[k := make_staff_superuser u]> (users db1)) (profiles db1))).
Proof.
  unfold create_superuser, mbind, M_bind. split; [|split].
  - by intros e db1 ->.
  - intros ->. unfold create_user. destruct mail as [[|c e]|]; by eexists.
  - intros u db1 Hcreate. rewrite Hcreate.
    apply create_user_inr in Hcreate
      as (k & e & n & _ & _ & _ & _ & Hu & Hnew & Huniq & Husers & _ & _).
    exists k. split; [by rewrite Hu|].
    apply resave_marked.
    + by rewrite Hu.
    + rewrite Husers. apply lookup_insert_eq.
    + intros k' row. rewrite Husers, lookup_insert_Some.
      intros [[-> _] | [_ Hrow]]; [by left|]. exact (Huniq k' row Hrow).
Qed.

(** X7. A successful [create_user] stores the returned user under a key that
    was free, as an active user who is neither staff nor superuser, gives
    that user exactly one profile, and leaves every other row and every
    other user's profiles as they were. *)
Theorem create_user_effect first last mail name pw db u db' :
  create_user first last mail name pw db = (inr u, db') →
  ∃ k, id u = Some k
    ∧ users db !! k = None
    ∧ users db' = <[k := u]> (users db)
    ∧ is_active u = true ∧ is_staff u = false ∧ is_superuser u = false
    ∧ size (profiles_of k db') = 1%nat
    ∧ (∀ j, j ≠ k → profiles_of j db' = profiles_of j db)
    ∧ (∀ j row, users db !! j = Some row → users db' !! j = Some row).
Proof.
  intros Hcreate.
  apply create_user_inr in Hcreate
    as (k & e & n & _ & _ & _ & _ & Hu & Hnew & _ & Husers & Hnone & Hprof).
  exists k. split; [by rewrite Hu|]. do 2 (split; [done|]).
  do 3 (split; [by rewrite Hu|]).
  destruct db' as [us ps]. simpl in Husers, Hprof. subst us ps.
  split; [|split].
  - rewrite profiles_of_insert_new by done. apply map_size_singleton.
  - intros j Hj. by apply profiles_of_insert_other.
  - intros j row Hrow. simpl. rewrite lookup_insert_ne; [done|]. congruence.
Qed.

(** X8. With an email and a username given, [create_user] raises
    [IntegrityError] and writes nothing when some row already has that
    username or that (normalised) email. *)
Theorem create_user_duplicate first last (e n : str) pw db j row :
  e ≠ [] → n ≠ [] →
  users db !! j = Some row →
  username row = n ∨ email row = normalize_email e →
  create_user first last (Some e) (Some n) pw db = (inl IntegrityError, db).
Proof.
  intros He Hn Hrow Hsame. rewrite create_user_given by done.
  apply (User_save_refused _ db (fresh (dom (users db))) true); [done|].
  apply User_unique_fails. exists j, row. split; [|done].
  intros ->. pose proof (is_fresh (dom (users db))) as Hfresh.
  apply not_elem_of_dom in Hfresh. congruence.
Qed.

Lemma empty_db_consistent : consistent empty_db.
Proof.
  split; [apply map_Forall_empty|]. split; [apply map_Forall_empty|].
  split; intros k; simpl; [by intros ? ? ? ? | by intros [? ?]].
Qed.



(** The full name is the short name, the last name and the display name in
    brackets. *)
Lemma get_full_name_parts (u : User) :
  get_full_name u
  = get_short_name u ++ text " " ++ last_name u ++ text " (" ++ User_str u ++ text ")".
Proof. unfold get_full_name, get_short_name, User_str. by rewrite <- !(assoc_L app). Qed.

Context `{PyRuntime}.

End manager.

(* ===================================================================== *)
(** * The email forms *)
(* ===================================================================== *)


(* ===================================================================== *)
(** * Further concrete runs *)
(* ===================================================================== *)

Lemma alice_created :
  @create_user plain_auth [] [] (Some (text "alice@example.org")) (Some (text "alice"))
     (Some (text "Str0ng#Pass2024")) empty_db
  = (inr (with_id 0 alice), alice_db).
Proof. by vm_compute. Qed.

Lemma alice_db_consistent : consistent alice_db.
Proof.
  apply (User_save_consistent alice empty_db (User_save alice empty_db).1).
  - apply empty_db_consistent.
  - unfold alice_db. by destruct (User_save alice empty_db).
Qed.

Lemma clean_missing_case_mix_witness :
  @passes_first ascii_runtime plain_auth 2 jdoe (change "alllowercase123@") = true
  ∧ @clean ascii_runtime plain_auth jdoe (change "alllowercase123@") = inl MissingCaseMix.
Proof.
  split; [reflexivity|].
  apply (@clean_missing_case_mix ascii_runtime plain_auth); [reflexivity|].
  right. vm_compute. repeat constructor.
Defined.

Lemma clean_missing_digit_witness :
  @passes_first ascii_runtime plain_auth 4 jdoe (change "NoDigitsAtAll@@") = true
  ∧ @clean ascii_runtime plain_auth jdoe (change "NoDigitsAtAll@@") = inl MissingDigit.
Proof.
  split; [reflexivity|].
  apply (@clean_missing_digit ascii_runtime plain_auth); [reflexivity|].
  vm_compute. repeat constructor.
Defined.

Lemma clean_accepts_only_compliant_witness :
  @clean ascii_runtime plain_auth jdoe (change "Str0ng#Pass2024")
    = inr (change "Str0ng#Pass2024")
  ∧ (14 ≤ length (new_password1 (change "Str0ng#Pass2024")))%nat.
Proof.
  split; [reflexivity|].
  apply (@clean_accepts_only_compliant ascii_runtime plain_auth jdoe
           (change "Str0ng#Pass2024") (change "Str0ng#Pass2024")).
  reflexivity.
Defined.


(** The username in mixed case inside the password. *)
Lemma clean_identity_any_case_witness :
  @passes_first ascii_runtime plain_auth 6 jdoe (change "My-jDoE-Pass12@") = true
  ∧ new_password1 (change "My-jDoE-Pass12@") = text "My-" ++ text "jDoE" ++ text "-Pass12@"
  ∧ ascii_lower (text "jDoE") = ascii_lower (username jdoe)
  ∧ @clean ascii_runtime plain_auth jdoe (change "My-jDoE-Pass12@")
    = inl ContainsIdentityFragment.
Proof.
  repeat (split; [reflexivity|]).
  apply (@clean_identity_any_case ascii_runtime plain_auth jdoe (change "My-jDoE-Pass12@")
           (username jdoe) (text "My-") (text "jDoE") (text "-Pass12@")).
  - apply ascii_runtime_lower_on_ascii.
  - apply list_elem_of_here.
  - reflexivity.
  - reflexivity.
  - reflexivity.
  - reflexivity.
  - reflexivity.
Defined.


Lemma create_user_effect_witness :
  size (profiles_of 0 alice_db) = 1%nat
  ∧ users alice_db = <[0 := with_id 0 alice]> (users empty_db).
Proof.
  destruct (@create_user_effect plain_auth _ _ _ _ _ _ _ _ alice_created)
    as (k & Hid & _ & Husers & _ & _ & _ & Hone & _).
  injection Hid as <-. done.
Defined.

Lemma create_user_duplicate_witness :
  users alice_db !! 0 = Some (with_id 0 alice)
  ∧ @create_user plain_auth (text "Al") (text "Ice") (Some (text "other@example.org"))
      (Some (text "alice")) None alice_db
    = (inl IntegrityError, alice_db).
Proof.
  split; [reflexivity|].
  apply (@create_user_duplicate plain_auth (text "Al") (text "Ice") (text "other@example.org")
           (text "alice") None alice_db 0 (with_id 0 alice));
    [done | done | reflexivity | by left].
Defined.

(** [create_superuser] on the empty database: one row, marked, and one
    profile. *)
Lemma create_superuser_effect_witness :
  ∃ db2, @create_superuser plain_auth [] [] (Some (text "alice@example.org"))
           (Some (text "Str0ng#Pass2024")) (Some (text "alice")) empty_db
         = (inr (make_staff_superuser (with_id 0 alice)), db2)
    ∧ profiles db2 = profiles alice_db.
Proof.
  destruct (proj2 (proj2 (@create_superuser_effect plain_auth [] []
              (Some (text "alice@example.org")) (Some (text "Str0ng#Pass2024"))
              (Some (text "alice")) empty_db)) _ _ alice_created)
    as (k & Hid & Hsuper).
  eexists. split; [exact Hsuper | reflexivity].
Defined.



